(** * k8soidcpublisher: republishing a cluster's OIDC discovery data

    [main.go] holds two programs.  The first one (lines 1-160, built by the
    [clusterpub] image) fetches the discovery document and the key set at
    start-up, refreshes both from a ticker goroutine and serves them from two
    shared variables.  The second one (lines 161-304, built by the
    [k8soidcpublisher] image) fetches the discovery document once, rewrites
    three of its fields and hands it, together with a key source that reads
    the API server, to a library handler.

    The API server, the JSON codec, [net/url] and the Kubernetes client
    bootstrap are libraries: they are the fields of [Externals].  Everything
    else is transcribed from the source, as state-passing functions over the
    upstream world and an event trace. *)

From stdpp Require Import base strings list gmap.
From Stdlib Require Import ZArith Ascii.

#[local] Open Scope Z_scope.

(** ** Go values *)

(** A [[]byte] body. *)
Definition bytes : Type := string.

(** The line feed that [json.Encoder.Encode] and [fmt.Fprintln] append. *)
Definition newline : string := String "010"%char EmptyString.

(** The discovery path both fetchers request. *)
Definition wellKnown : string := "/.well-known/openid-configuration".

(** A library call returning [(value, error)]: exactly one side is set. *)
Inductive result (A : Type) : Type :=
| Ok (a : A)
| Err (e : string).
Arguments Ok {A} a.
Arguments Err {A} e.

(** [oidc.ProviderMetadata]: the four fields the programs read or write, and
    the remaining fields of the document, by JSON name. *)
Record ProviderMetadata : Type := {
  Issuer : string;
  JWKSURI : string;
  AuthorizationEndpoint : string;
  TokenEndpoint : string;
  Other : list (string * list string)
}.

(** Assignments to a field through a [*ProviderMetadata]. *)
Definition set_JWKSURI (u : string) (md : ProviderMetadata) : ProviderMetadata :=
  {| Issuer := Issuer md;
     JWKSURI := u;
     AuthorizationEndpoint := AuthorizationEndpoint md;
     TokenEndpoint := TokenEndpoint md;
     Other := Other md |}.

Definition set_TokenEndpoint (u : string) (md : ProviderMetadata)
  : ProviderMetadata :=
  {| Issuer := Issuer md;
     JWKSURI := JWKSURI md;
     AuthorizationEndpoint := AuthorizationEndpoint md;
     TokenEndpoint := u;
     Other := Other md |}.

Definition set_AuthorizationEndpoint (u : string) (md : ProviderMetadata)
  : ProviderMetadata :=
  {| Issuer := Issuer md;
     JWKSURI := JWKSURI md;
     AuthorizationEndpoint := u;
     TokenEndpoint := TokenEndpoint md;
     Other := Other md |}.

(** What a run leaves behind: upstream requests, log lines, the listener,
    the exit status, and [server.Shutdown] with its grace period in seconds. *)
Inductive event : Type :=
| EvGet (uri : string)
| EvLog (msg : string)
| EvListen (addr : string)
| EvExit (code : Z)
| EvShutdown (grace : Z).

(** The libraries the programs call. *)
Class Externals : Type := {
  (** the API server behind the REST client, and how it changes *)
  World : Type;
  (** [jose.JSONWebKeySet] *)
  JSONWebKeySet : Type;
  (** [rest.Config] *)
  RestConfig : Type;
  (** [cl.Get().RequestURI(uri).Do(ctx).Raw()]; [Err] carries [res.Error()] *)
  raw : string -> World -> result bytes * World;
  (** [json.Unmarshal] into a [ProviderMetadata] and into a key set *)
  unmarshal_metadata : bytes -> result ProviderMetadata;
  unmarshal_jwks : bytes -> result JSONWebKeySet;
  (** [json.Marshal] of the two *)
  marshal_metadata : ProviderMetadata -> result bytes;
  marshal_jwks : JSONWebKeySet -> result bytes;
  (** [url.Parse(s)] followed by [.Path] *)
  url_path : string -> result string;
  (** [clientcmd.BuildConfigFromFlags("", path)], [rest.InClusterConfig()],
      [rest.RESTClientFor(config)] *)
  BuildConfigFromFlags : string -> result RestConfig;
  InClusterConfig : result RestConfig;
  RESTClientFor : RestConfig -> result unit;
  (** the check [discovery.NewOIDCConfigurationHandlerWithJWKSSource] makes
      of the metadata it is given *)
  handler_check : ProviderMetadata -> result unit
}.

(** ** Effects: the upstream world and the trace *)

Section Effects.
Context `{E : Externals}.

Record Sys : Type := { world : World; trace : list event }.

Definition Act (A : Type) : Type := Sys -> A * Sys.

Definition ret {A : Type} (a : A) : Act A := fun s => (a, s).

Definition bind {A B : Type} (c : Act A) (k : A -> Act B) : Act B :=
  fun s => k (c s).1 (c s).2.

Definition emit (e : event) : Act unit :=
  fun s => (tt, {| world := world s; trace := trace s ++ [e] |}).

(** [log.Print], [log.Printf], [slog.Info], [slog.Error]. *)
Definition log (msg : string) : Act unit := emit (EvLog msg).

(** One GET against the REST client. *)
Definition get (uri : string) : Act (result bytes) :=
  fun s =>
    ((raw uri (world s)).1,
     {| world := (raw uri (world s)).2; trace := trace s ++ [EvGet uri] |}).

(** The upstream requests of a trace, in order. *)
Definition gets (t : list event) : list string :=
  omap (fun e => match e with EvGet u => Some u | _ => None end) t.

(** Whether a trace binds the listener. *)
Definition listens (t : list event) : bool :=
  existsb (fun e => match e with EvListen _ => true | _ => false end) t.

End Effects.

Notation "'do' x <- c ; k" := (bind c (fun x => k))
  (at level 10, x name, c at level 100, k at level 200).
Notation "'do' ' p <- c ; k" := (bind c (fun p => k))
  (at level 10, p pattern, c at level 100, k at level 200).
Notation "'run' c ; k" := (bind c (fun _ => k))
  (at level 10, c at level 100, k at level 200).

(** How a process stands when [main] has nothing more to do at start-up:
    gone through [os.Exit], listening, or dead of a nil dereference. *)
Inductive proc (S : Type) : Type :=
| Exited (code : Z)
| Serving (addr : string) (st : S)
| Crashed.
Arguments Exited {S} code.
Arguments Serving {S} addr st.
Arguments Crashed {S}.

(** [log.Fatalf]: print, then [os.Exit(1)]. *)
Definition fatalf `{E : Externals} {S : Type} (msg : string) : Act (proc S) :=
  run log msg; run emit (EvExit 1); ret (Exited 1).

(** The client bootstrap both programs start with: the configuration from
    the [-kubeconfig] flag or from the cluster, then the REST client. *)
Definition bootstrap `{E : Externals} (kubeconfig : string) : result unit :=
  let config :=
    if decide (kubeconfig = "")
    then match InClusterConfig with
         | Ok c => Ok c
         | Err e => Err ("Error creating in cluster configuration: " +:+ e)
         end
    else match BuildConfigFromFlags kubeconfig with
         | Ok c => Ok c
         | Err e => Err ("Error flag config: " +:+ e)
         end in
  match config with
  | Err e => Err e
  | Ok c =>
      match RESTClientFor c with
      | Ok _ => Ok tt
      | Err e => Err ("Error creating rest client: " +:+ e)
      end
  end.

(** An HTTP exchange as its client sees it; [Aborted] when the handler
    panicked and [net/http] dropped the connection. *)
Inductive reply : Type :=
| Reply (status : Z) (content_type : string) (body : bytes)
| Aborted.

(** [http.Error(w, "Internal Error", 500)]. *)
Definition internal_error : reply :=
  Reply 500 "text/plain; charset=utf-8" ("Internal Error" +:+ newline).

(** [json.NewEncoder(w).Encode(p)] for a pointer [p]: a nil pointer encodes
    as [null]; the encoding is followed by a line feed. *)
Definition encode {A : Type} (marshal : A -> result bytes) (p : option A)
  : result bytes :=
  match p with
  | None => Ok ("null" +:+ newline)
  | Some a =>
      match marshal a with
      | Ok b => Ok (b +:+ newline)
      | Err e => Err e
      end
  end.

(** ** The first program: shared variables refreshed by a ticker *)

Module Clusterpub.
Section Program.
Context `{E : Externals}.

(** [discoverAPIServerOIDC]: the Go triple [(md, ks, err)], nil as [None]. *)
Definition discoverAPIServerOIDC
  : Act (option ProviderMetadata * option JSONWebKeySet * option string) :=
  do mdraw <- get "/.well-known/openid-configuration";
  match mdraw with
  | Err e =>
      ret (None, None, Some ("getting /.well-known/openid-configuration: " +:+ e))
  | Ok mdraw =>
      match unmarshal_metadata mdraw with
      | Err e => ret (None, None, Some ("unmarshaling discovery response: " +:+ e))
      | Ok md =>
          match url_path (JWKSURI md) with
          | Err e =>
              ret (None, None,
                   Some ("parsing jwks url " +:+ JWKSURI md +:+ ": " +:+ e))
          | Ok path =>
              do kraw <- get path;
              match kraw with
              | Err e => ret (None, None, Some ("getting " +:+ path +:+ ": " +:+ e))
              | Ok kraw =>
                  match unmarshal_jwks kraw with
                  | Err e => ret (None, None, Some ("unmarshaling jwks: " +:+ e))
                  | Ok ks => ret (Some md, Some ks, None)
                  end
              end
          end
      end
  end.

(** The variables [metadata] and [jwks] of [main], which the goroutine and
    the two handlers capture. *)
Record Vars : Type := {
  metadata : option ProviderMetadata;
  jwks : option JSONWebKeySet
}.

(** The part of the loop body before its assignment: log, fetch, log the
    error if there is one.  It yields the operands of the assignment. *)
Definition discovering
  : Act (option ProviderMetadata * option JSONWebKeySet) :=
  run log "Discovering..";
  do '(md, ks, err) <- discoverAPIServerOIDC;
  run match err with
      | Some e => log ("Failed to discover: " +:+ e)
      | None => ret tt
      end;
  ret (md, ks).

(** One iteration of [for range time.NewTicker(fetchInterval).C]. *)
Definition refresh (v : Vars) : Act Vars :=
  do '(md, ks) <- discovering;
  ret {| metadata := md; jwks := ks |}.

(** The goroutine over the ticks it has received so far. *)
Fixpoint refresh_loop (ticks : nat) (v : Vars) : Act Vars :=
  match ticks with
  | O => ret v
  | S n => do v' <- refresh v; refresh_loop n v'
  end.

(** The handler of [/.well-known/openid-configuration].  It writes the
    rewritten URI through the shared pointer; a nil pointer panics. *)
Definition serveOpenIDConfiguration (v : Vars) : Vars * reply :=
  match metadata v with
  | None => (v, Aborted)
  | Some md =>
      let md' := set_JWKSURI (Issuer md +:+ "/jwks") md in
      let v' := {| metadata := Some md'; jwks := jwks v |} in
      match encode marshal_metadata (Some md') with
      | Ok b => (v', Reply 200 "application/json" b)
      | Err _ => (v', internal_error)
      end
  end.

(** The handler of [/jwks]. *)
Definition serveJWKS (v : Vars) : Vars * reply :=
  match encode marshal_jwks (jwks v) with
  | Ok b => (v, Reply 200 "application/jwk-set+json" b)
  | Err _ => (v, internal_error)
  end.

(** [main] up to [http.ListenAndServe]. *)
Definition main (listen kubeconfig : string) : Act (proc Vars) :=
  match bootstrap kubeconfig with
  | Err e => fatalf e
  | Ok _ =>
      do '(md, ks, err) <- discoverAPIServerOIDC;
      match err with
      | Some e => fatalf ("Failed to discover: " +:+ e)
      | None =>
          run log ("listening on " +:+ listen);
          run emit (EvListen listen);
          ret (Serving listen {| metadata := md; jwks := ks |})
      end
  end.

(** *** The serving process, one memory access at a time

    [metadata, jwks = md, ks] evaluates its operands, then stores [metadata],
    then stores [jwks]; nothing orders the handlers with respect to the two
    stores.  [refresher] is where the goroutine stands. *)
Inductive pc : Type :=
| Waiting
| Fetched (md : option ProviderMetadata) (ks : option JSONWebKeySet)
| StoredMetadata (ks : option JSONWebKeySet).

(** The two statements of the discovery handler, which load [metadata]
    separately: the rewrite through the pointer (a nil pointer panics, hence
    [None]) and the encoding of what the pointer holds then. *)
Definition rewriteJWKSURI (v : Vars) : option Vars :=
  match metadata v with
  | None => None
  | Some md =>
      Some {| metadata := Some (set_JWKSURI (Issuer md +:+ "/jwks") md);
              jwks := jwks v |}
  end.

Definition encodeMetadata (v : Vars) : reply :=
  match encode marshal_metadata (metadata v) with
  | Ok b => Reply 200 "application/json" b
  | Err _ => internal_error
  end.

(** [pending] counts the discovery requests that have made their rewrite
    and not yet encoded. *)
Record machine : Type := {
  sys : Sys;
  vars : Vars;
  refresher : pc;
  pending : nat
}.

(** [GetOpenIDConfiguration] is a discovery request that runs without
    anything in between; [Rewrite] and [Encode] are its two statements when
    other steps fall between them. *)
Inductive action : Type :=
| Tick
| Store
| GetOpenIDConfiguration
| GetJWKS
| Rewrite
| Encode.

(** One step; [None] when the action cannot happen in this state. *)
Definition step (a : action) (m : machine) : option (machine * option reply) :=
  match a, refresher m with
  | Tick, Waiting =>
      let r := discovering (sys m) in
      Some ({| sys := r.2; vars := vars m; refresher := Fetched r.1.1 r.1.2;
               pending := pending m |},
            None)
  | Tick, _ => None
  | Store, Fetched md ks =>
      Some ({| sys := sys m;
               vars := {| metadata := md; jwks := jwks (vars m) |};
               refresher := StoredMetadata ks;
               pending := pending m |}, None)
  | Store, StoredMetadata ks =>
      Some ({| sys := sys m;
               vars := {| metadata := metadata (vars m); jwks := ks |};
               refresher := Waiting;
               pending := pending m |}, None)
  | Store, Waiting => None
  | GetOpenIDConfiguration, p =>
      let (v', r) := serveOpenIDConfiguration (vars m) in
      Some ({| sys := sys m; vars := v'; refresher := p;
               pending := pending m |}, Some r)
  | GetJWKS, p =>
      let (v', r) := serveJWKS (vars m) in
      Some ({| sys := sys m; vars := v'; refresher := p;
               pending := pending m |}, Some r)
  | Rewrite, p =>
      match rewriteJWKSURI (vars m) with
      | None => Some (m, Some Aborted)
      | Some v' =>
          Some ({| sys := sys m; vars := v'; refresher := p;
                   pending := S (pending m) |}, None)
      end
  | Encode, p =>
      match pending m with
      | O => None
      | S n =>
          Some ({| sys := sys m; vars := vars m; refresher := p;
                   pending := n |}, Some (encodeMetadata (vars m)))
      end
  end.

(** A schedule, with the replies it produced in order. *)
Fixpoint exec (sched : list action) (m : machine) : option (machine * list reply) :=
  match sched with
  | [] => Some (m, [])
  | a :: rest =>
      match step a m with
      | None => None
      | Some (m', r) =>
          match exec rest m' with
          | None => None
          | Some (m'', rs) => Some (m'', from_option (fun x => [x]) [] r ++ rs)
          end
      end
  end.

(** The process as [main] leaves it. *)
Definition serving (s : Sys) (v : Vars) : machine :=
  {| sys := s; vars := v; refresher := Waiting; pending := 0 |}.

(** What the variables will hold once the stores in flight are done. *)
Definition settled (m : machine) : Vars :=
  match refresher m with
  | Waiting => vars m
  | Fetched md ks => {| metadata := md; jwks := ks |}
  | StoredMetadata ks => {| metadata := metadata (vars m); jwks := ks |}
  end.

(** The operands of the last assignment a schedule starts, if it starts
    one: what the fetch of its last tick returned. *)
Fixpoint latest (sched : list action) (m : machine)
  : option (option ProviderMetadata * option JSONWebKeySet) :=
  match sched with
  | [] => None
  | a :: rest =>
      match step a m with
      | None => None
      | Some (m', _) =>
          match latest rest m', a with
          | Some x, _ => Some x
          | None, Tick => Some (discovering (sys m)).1
          | None, _ => None
          end
      end
  end.

(** A document as it was fetched, or as the discovery handler left it. *)
Definition as_served (fetched now : option ProviderMetadata) : Prop :=
  now = fetched
  \/ now = (fun md => set_JWKSURI (Issuer md +:+ "/jwks") md) <$> fetched.

End Program.
End Clusterpub.

(** ** The second program: metadata fixed at start-up, keys on demand *)

Module Publisher.
Section Program.
Context `{E : Externals}.

(** [discoverAPIServerOIDC]: the Go pair [(md, err)]. *)
Definition discoverAPIServerOIDC : Act (option ProviderMetadata * option string) :=
  do mdraw <- get "/.well-known/openid-configuration";
  match mdraw with
  | Err e =>
      ret (None, Some ("getting /.well-known/openid-configuration: " +:+ e))
  | Ok mdraw =>
      match unmarshal_metadata mdraw with
      | Err e => ret (None, Some ("unmarshaling discovery response: " +:+ e))
      | Ok md => ret (Some md, None)
      end
  end.

(** [k8sAPIJWKSSource]; its [cl] is the REST client every [get] goes to. *)
Record k8sAPIJWKSSource : Type := { url : string }.

(** The library's [JWKSSource] interface. *)
Class JWKSSource (S : Type) : Type :=
  GetJWKS : S -> Act (option bytes * option string).

#[global] Instance k8sAPIJWKSSource_GetJWKS : JWKSSource k8sAPIJWKSSource :=
  fun s =>
    do kraw <- get (url s);
    match kraw with
    | Err e => ret (None, Some ("getting " +:+ url s +:+ ": " +:+ e))
    | Ok kraw => ret (Some kraw, None)
    end.

(** What [main] gives [NewOIDCConfigurationHandlerWithJWKSSource]; the
    handler is mounted on both routes. *)
Record Handler : Type := {
  published : ProviderMetadata;
  source : k8sAPIJWKSSource
}.

(** The three assignments [main] makes to the fetched metadata. *)
Definition republish (md : ProviderMetadata) : ProviderMetadata :=
  let md1 := set_JWKSURI (Issuer md +:+ "/.well-known/jwks.json") md in
  let md2 := set_TokenEndpoint (Issuer md1 +:+ "/nonexistent") md1 in
  set_AuthorizationEndpoint (Issuer md2 +:+ "/nonexistent") md2.

(** [main] up to [server.ListenAndServe]; [slog.Error] then [os.Exit(1)]
    leaves the same trace as [log.Fatalf]. *)
Definition main (listen kubeconfig : string) : Act (proc Handler) :=
  match bootstrap kubeconfig with
  | Err e => fatalf e
  | Ok _ =>
      do '(metadata, err) <- discoverAPIServerOIDC;
      match err, metadata with
      | Some e, _ => fatalf ("Failed to discover provider metadata error=" +:+ e)
      | None, None => ret Crashed
      | None, Some md =>
          let upstreamJWKSURI := JWKSURI md in
          let md' := republish md in
          match handler_check md' with
          | Err e => fatalf ("Failed to create discovery handler error=" +:+ e)
          | Ok _ =>
              run log ("listening addr=" +:+ listen);
              run emit (EvListen listen);
              ret (Serving listen {| published := md';
                                     source := {| url := upstreamJWKSURI |} |})
          end
      end
  end.


End Program.
End Publisher.

(** ** The [cache] type of the first program *)

Module Cache.

Definition mdKey : string := "md".
Definition ksKey : string := "ks".

(** A [sync.RWMutex]: whether a writer holds it, and how many readers. *)
Record RWMutex : Type := { writer : bool; readers : nat }.

Section Values.
(** The dynamic values an [interface{}] can hold; nil is [None]. *)
Context {V : Type}.

(** [cache]; a nil [data] map is [None]. *)
Record cache : Type := {
  data : option (gmap string (option V));
  dataMu : RWMutex
}.

(** The zero value [cache{}]: the only value the program can build, since
    the type has no constructor function. *)
Definition zero : cache :=
  {| data := None; dataMu := {| writer := false; readers := 0 |} |}.

(** How a call ends: it returns, it panics (the deferred unlock has run),
    or it waits for the lock. *)
Inductive outcome (A : Type) : Type :=
| Returned (a : A) (c : cache)
| Panicked (c : cache)
| Blocked.
Arguments Returned {A} a c.
Arguments Panicked {A} c.
Arguments Blocked {A}.

(** [c.data[key]] as an r-value: nil for a nil map or a missing key. *)
Definition index (m : option (gmap string (option V))) (key : string) : option V :=
  match m with
  | None => None
  | Some m => from_option id None (m !! key)
  end.

Definition Get (c : cache) (key : string) : outcome (option V) :=
  if writer (dataMu c) then Blocked
  else
    let locked := {| writer := false; readers := S (readers (dataMu c)) |} in
    let v := index (data c) key in
    let unlocked := {| writer := false; readers := Nat.pred (readers locked) |} in
    Returned v {| data := data c; dataMu := unlocked |}.

Definition Set_ (c : cache) (key : string) (d : option V) : outcome unit :=
  if writer (dataMu c) || negb (Nat.eqb (readers (dataMu c)) 0) then Blocked
  else
    let unlocked := {| writer := false; readers := 0 |} in
    match data c with
    | None => Panicked {| data := None; dataMu := unlocked |}
    | Some m => Returned tt {| data := Some (<[key := d]> m); dataMu := unlocked |}
    end.

End Values.
Arguments cache V : clear implicits.
Arguments outcome V A : clear implicits.
Arguments Returned {V A} a c.
Arguments Panicked {V A} c.
Arguments Blocked {V A}.
End Cache.

(** ** A scripted upstream

    A test double for [Externals]: the API server answers successive GETs
    from a script and refuses the connection when the script is over; the
    codec knows four discovery documents by their body and takes any body
    that opens a JSON object as a key set, which it keeps as it is. *)

Module Fixture.

Definition issuer : string := "https://issuer.example".

Definition doc (jwks_uri alg : string) : ProviderMetadata :=
  {| Issuer := issuer;
     JWKSURI := jwks_uri;
     AuthorizationEndpoint := "";
     TokenEndpoint := "";
     Other := [("response_types_supported", ["id_token"]);
               ("id_token_signing_alg_values_supported", [alg])] |}.

(** What a cluster serves by default, before and after a key rotation. *)
Definition internal_doc : ProviderMetadata :=
  doc "https://10.0.0.1:6443/openid/v1/jwks" "RS256".
Definition rotated_doc : ProviderMetadata :=
  doc "https://10.0.0.1:6443/openid/v1/jwks" "ES256".
(** Clusters whose [--service-account-jwks-uri] already names the
    publisher's own route, for each program. *)
Definition jwks_doc : ProviderMetadata := doc (issuer +:+ "/jwks") "RS256".
Definition wellknown_doc : ProviderMetadata :=
  doc (issuer +:+ "/.well-known/jwks.json") "RS256".

Definition keys1 : bytes := "{keys:[abc]}".
Definition keys2 : bytes := "{keys:[def]}".

Definition script : Type := list (result bytes).

Definition answer (uri : string) (w : script) : result bytes * script :=
  match w with
  | [] => (Err "connection refused", [])
  | r :: w' => (r, w')
  end.

Definition parse_doc (b : bytes) : result ProviderMetadata :=
  if decide (b = "discovery:internal") then Ok internal_doc
  else if decide (b = "discovery:rotated") then Ok rotated_doc
  else if decide (b = "discovery:jwks") then Ok jwks_doc
  else if decide (b = "discovery:wellknown") then Ok wellknown_doc
  else Err "invalid character".

Definition parse_keys (b : bytes) : result bytes :=
  match b with
  | String "{"%char _ => Ok b
  | _ => Err "invalid character"
  end.

Definition print_doc (md : ProviderMetadata) : result bytes :=
  Ok ("issuer=" +:+ Issuer md +:+ " jwks_uri=" +:+ JWKSURI md
      +:+ " alg=" +:+ String.concat "," (mjoin (snd <$> Other md))).

Definition path_of (u : string) : result string :=
  if decide (u = "https://10.0.0.1:6443/openid/v1/jwks") then Ok "/openid/v1/jwks"
  else if decide (u = issuer +:+ "/jwks") then Ok "/jwks"
  else if decide (u = issuer +:+ "/.well-known/jwks.json")
       then Ok "/.well-known/jwks.json"
  else Err "missing protocol scheme".

Definition externals : Externals :=
  {| World := script;
     JSONWebKeySet := bytes;
     RestConfig := unit;
     raw := answer;
     unmarshal_metadata := parse_doc;
     unmarshal_jwks := parse_keys;
     marshal_metadata := print_doc;
     marshal_jwks := Ok;
     url_path := path_of;
     BuildConfigFromFlags := fun _ => Ok tt;
     InClusterConfig := Ok tt;
     RESTClientFor := fun _ => Ok tt;
     handler_check := fun _ => Ok tt |}.

(** A body taken as the key set it parses to. *)
Definition keyset (b : bytes) : @JSONWebKeySet externals := b.

(** The system before [main] runs, facing a given script. *)
Definition boot (w : script) : @Sys externals := @Build_Sys externals w [].

(** The first program once it is primed with [internal_doc] and [keys1]. *)
Definition primed (w : script) : @Clusterpub.machine externals :=
  Clusterpub.serving (boot w)
    (@Clusterpub.Build_Vars externals (Some internal_doc) (Some keys1)).

(** What the second program hands to the library on a default cluster. *)
Definition default_handler : Publisher.Handler :=
  {| Publisher.published := Publisher.republish internal_doc;
     Publisher.source := {| Publisher.url := JWKSURI internal_doc |} |}.

End Fixture.

(** ** Scripted failures at start-up

    Two more test doubles: a process started outside a cluster with no
    [-kubeconfig], and a handler library that refuses the metadata. *)

Module Faulty.

Definition outside_cluster : Externals :=
  {| World := Fixture.script;
     JSONWebKeySet := bytes;
     RestConfig := unit;
     raw := Fixture.answer;
     unmarshal_metadata := Fixture.parse_doc;
     unmarshal_jwks := Fixture.parse_keys;
     marshal_metadata := Fixture.print_doc;
     marshal_jwks := Ok;
     url_path := Fixture.path_of;
     BuildConfigFromFlags := fun _ => Ok tt;
     InClusterConfig := Err "unable to load in-cluster configuration";
     RESTClientFor := fun _ => Ok tt;
     handler_check := fun _ => Ok tt |}.

Definition strict_handler : Externals :=
  {| World := Fixture.script;
     JSONWebKeySet := bytes;
     RestConfig := unit;
     raw := Fixture.answer;
     unmarshal_metadata := Fixture.parse_doc;
     unmarshal_jwks := Fixture.parse_keys;
     marshal_metadata := Fixture.print_doc;
     marshal_jwks := Ok;
     url_path := Fixture.path_of;
     BuildConfigFromFlags := fun _ => Ok tt;
     InClusterConfig := Ok tt;
     RESTClientFor := fun _ => Ok tt;
     handler_check := fun _ => Err "issuer is not an https URL" |}.

Definition boot (E : Externals) (w : @World E) : @Sys E := @Build_Sys E w [].

End Faulty.

(** ** Counting what a trace holds *)

(** The line the refresh goroutine prints at the start of every iteration. *)
Definition announces (e : event) : bool :=
  match e with
  | EvLog m => String.eqb m "Discovering.."
  | _ => false
  end.

(** How many iterations a trace has seen start. *)
Definition announced (t : list event) : nat := length (List.filter announces t).


(** Where a schedule leaves the process (where it was, if the schedule
    cannot run). *)
Definition after `{E : Externals} (sched : list Clusterpub.action)
    (m : Clusterpub.machine) : Clusterpub.machine :=
  from_option fst m (Clusterpub.exec sched m).

(** The reply a request handled without interruption gets from given
    variables. *)
Definition reply_to `{E : Externals} (v : Clusterpub.Vars)
    (a : Clusterpub.action) : reply :=
  match a with
  | Clusterpub.GetJWKS => (Clusterpub.serveJWKS v).2
  | _ => (Clusterpub.serveOpenIDConfiguration v).2
  end.


(** The actions that are requests of a client. *)
Definition is_request (a : Clusterpub.action) : bool :=
  match a with
  | Clusterpub.GetOpenIDConfiguration | Clusterpub.GetJWKS => true
  | _ => false
  end.

(** * Properties *)

(** Unfold the effect layer and split on what the libraries answer. *)
Ltac act := unfold bind, ret, get, log, emit, fatalf in *; simpl in *.
Ltac branch :=
  repeat match goal with
         | |- context [match ?x with _ => _ end] => destruct x eqn:?; simpl in *
         | |- context [let (_, _) := ?x in _] => destruct x eqn:?; simpl in *
         end.

(** ** The fetcher of the first program *)

Section ClusterpubFetch.
Context `{E : Externals}.
Import Clusterpub.

(** The fetcher returns either both documents or an error, never a mix. *)
Lemma discover_shape (s : Sys) :
  (exists md ks, (discoverAPIServerOIDC s).1 = (Some md, Some ks, None))
  \/ (exists e, (discoverAPIServerOIDC s).1 = (None, None, Some e)).
Proof.
  unfold discoverAPIServerOIDC. act. branch; eauto.
Qed.

Lemma discover_error (s : Sys) (e : string) :
  (discoverAPIServerOIDC s).1.2 = Some e ->
  (discoverAPIServerOIDC s).1 = (None, None, Some e).
Proof.
  intros H. destruct (discover_shape s) as [(md & ks & Hs) | (e' & Hs)];
    rewrite Hs in *; simpl in H; congruence.
Qed.

(** The fetcher writes nothing but GETs to the trace, the discovery path
    first. *)
Lemma discover_trace (s : Sys) :
  exists tl, trace (discoverAPIServerOIDC s).2
             = trace s ++ EvGet "/.well-known/openid-configuration" :: tl
             /\ (tl = [] \/ exists p, tl = [EvGet p]).
Proof.
  unfold discoverAPIServerOIDC. act. branch;
    try (exists []; split; [reflexivity | left; reflexivity]).
  all: eexists; split; [rewrite <- app_assoc; reflexivity | right; eauto].
Qed.

End ClusterpubFetch.

(** ** The refresh goroutine *)

Section ClusterpubRefresh.
Context `{E : Externals}.
Import Clusterpub.

Lemma discovering_operands (s : Sys) :
  (discovering s).1 = ((discoverAPIServerOIDC (log "Discovering.." s).2).1.1.1,
                       (discoverAPIServerOIDC (log "Discovering.." s).2).1.1.2).
Proof.
  unfold discovering. act.
  destruct (discoverAPIServerOIDC _) as [[[md ks] err] s1]. simpl.
  destruct err; reflexivity.
Qed.

(** C1 (the code departs from it).  A tick whose fetch fails does not keep
    the cached values: the loop body logs the error and then assigns the nil
    results of the fetch to both variables. *)
Theorem refresh_error_clears_variables (v : Vars) (s : Sys) (e : string) :
  (discoverAPIServerOIDC (log "Discovering.." s).2).1.2 = Some e ->
  (refresh v s).1 = {| metadata := None; jwks := None |}
  /\ trace (refresh v s).2
     = trace (discoverAPIServerOIDC (log "Discovering.." s).2).2
       ++ [EvLog ("Failed to discover: " +:+ e)].
Proof.
  intros H. apply discover_error in H.
  unfold refresh, discovering. act.
  destruct (discoverAPIServerOIDC _) as [[[md ks] err] s1]. simpl in *.
  inversion H; subst. simpl. split; reflexivity.
Qed.

(** Nothing of the previous values enters an iteration's result, and so
    none survives a run of the loop. *)
Lemma refresh_ignores_variables (v v' : Vars) (s : Sys) :
  refresh v s = refresh v' s.
Proof. reflexivity. Qed.

Lemma refresh_loop_ignores_variables (n : nat) (v v' : Vars) (s : Sys) :
  refresh_loop (S n) v s = refresh_loop (S n) v' s.
Proof.
  simpl. unfold bind. rewrite (refresh_ignores_variables v v'). reflexivity.
Qed.

(** The loop body is the tick followed by its two stores. *)
Lemma refresh_as_steps (v : Vars) (s : Sys) :
  exec [Tick; Store; Store] (serving s v)
  = Some (serving (refresh v s).2 (refresh v s).1, []).
Proof.
  unfold exec, step, serving, refresh. act.
  destruct (discovering s) as [[md ks] s']. reflexivity.
Qed.

End ClusterpubRefresh.

(** C1 at a tick that finds the API server unreachable. *)
Lemma refresh_error_clears_variables_witness :
  (@Clusterpub.refresh Fixture.externals
     (Clusterpub.vars (Fixture.primed [])) (Fixture.boot [])).1
  = @Clusterpub.Build_Vars Fixture.externals None None
  /\ trace (@Clusterpub.refresh Fixture.externals
              (Clusterpub.vars (Fixture.primed [])) (Fixture.boot [])).2
     = [EvLog "Discovering..";
        EvGet "/.well-known/openid-configuration";
        EvLog "Failed to discover: getting /.well-known/openid-configuration: connection refused"].
Proof.
  apply (@refresh_error_clears_variables Fixture.externals
           (Clusterpub.vars (Fixture.primed [])) (Fixture.boot [])
           "getting /.well-known/openid-configuration: connection refused").
  reflexivity.
Defined.

(** After that tick the discovery route panics on the nil pointer and the
    key route serves [null]; before it both served the primed documents. *)
Lemma refresh_error_then_requests :
  let requests := [Clusterpub.GetOpenIDConfiguration; Clusterpub.GetJWKS] in
  snd <$> Clusterpub.exec requests (Fixture.primed [])
  = Some [Reply 200 "application/json"
            ("issuer=https://issuer.example jwks_uri=https://issuer.example/jwks alg=id_token,RS256" +:+ newline);
          Reply 200 "application/jwk-set+json" (Fixture.keys1 +:+ newline)]
  /\ snd <$> Clusterpub.exec
               ([Clusterpub.Tick; Clusterpub.Store; Clusterpub.Store] ++ requests)
               (Fixture.primed [])
     = Some [Aborted; Reply 200 "application/jwk-set+json" ("null" +:+ newline)].
Proof.
  split; vm_compute; reflexivity.
Qed.

(** ** What one fetch asks of the API server *)

Section FetchCycle.
Context `{E : Externals}.

(** C6 (as amended).  A fetch of the first program issues the discovery GET
    and, only when that document arrived, parsed and carries a URI that
    parses, a second GET for the path of the URI: one or two requests, never
    a repeated one.  Every failure is returned with the message of its
    stage.  The second program splits the cycle: its fetcher stops after the
    discovery document, and the key source issues the one GET for the
    upstream URI and returns the body unparsed. *)
Theorem fetch_cycle_requests (s : Sys) :
  let r1 := raw wellKnown (world s) in
  let d := Clusterpub.discoverAPIServerOIDC s in
  (forall e, r1.1 = Err e ->
     d.1 = (None, None, Some ("getting /.well-known/openid-configuration: " +:+ e))
     /\ trace d.2 = trace s ++ [EvGet wellKnown])
  /\ (forall b e, r1.1 = Ok b -> unmarshal_metadata b = Err e ->
        d.1 = (None, None, Some ("unmarshaling discovery response: " +:+ e))
        /\ trace d.2 = trace s ++ [EvGet wellKnown])
  /\ (forall b md e, r1.1 = Ok b -> unmarshal_metadata b = Ok md ->
        url_path (JWKSURI md) = Err e ->
        d.1 = (None, None,
               Some ("parsing jwks url " +:+ JWKSURI md +:+ ": " +:+ e))
        /\ trace d.2 = trace s ++ [EvGet wellKnown])
  /\ (forall b md p, r1.1 = Ok b -> unmarshal_metadata b = Ok md ->
        url_path (JWKSURI md) = Ok p ->
        let r2 := raw p r1.2 in
        trace d.2 = trace s ++ [EvGet wellKnown; EvGet p]
        /\ world d.2 = r2.2
        /\ (forall e, r2.1 = Err e ->
              d.1 = (None, None, Some ("getting " +:+ p +:+ ": " +:+ e)))
        /\ (forall k e, r2.1 = Ok k -> unmarshal_jwks k = Err e ->
              d.1 = (None, None, Some ("unmarshaling jwks: " +:+ e)))
        /\ (forall k ks, r2.1 = Ok k -> unmarshal_jwks k = Ok ks ->
              d.1 = (Some md, Some ks, None)))
  /\ trace (Publisher.discoverAPIServerOIDC s).2 = trace s ++ [EvGet wellKnown]
  /\ (forall src : Publisher.k8sAPIJWKSSource,
        let r := raw (Publisher.url src) (world s) in
        trace (Publisher.GetJWKS src s).2 = trace s ++ [EvGet (Publisher.url src)]
        /\ (forall k, r.1 = Ok k -> (Publisher.GetJWKS src s).1 = (Some k, None))
        /\ (forall e, r.1 = Err e ->
              (Publisher.GetJWKS src s).1
              = (None, Some ("getting " +:+ Publisher.url src +:+ ": " +:+ e)))).
Proof.
  unfold wellKnown, Clusterpub.discoverAPIServerOIDC,
    Publisher.discoverAPIServerOIDC, Publisher.GetJWKS,
    Publisher.k8sAPIJWKSSource_GetJWKS.
  cbv zeta. act.
  split; [intros e H; rewrite H; split; reflexivity |].
  split; [intros b e H1 H2; rewrite H1, H2; split; reflexivity |].
  split; [intros b md e H1 H2 H3; rewrite H1, H2, H3; split; reflexivity |].
  split.
  { intros b md p H1 H2 H3. rewrite H1, H2, H3. simpl.
    split; [destruct (raw p _).1; [destruct (unmarshal_jwks _) |]; simpl;
            rewrite <- app_assoc; reflexivity |].
    split; [destruct (raw p _).1; [destruct (unmarshal_jwks _) |]; reflexivity |].
    split; [intros e He; rewrite He; reflexivity |].
    split; [intros k e Hk Hp; rewrite Hk, Hp; reflexivity |].
    intros k ks Hk Hp. rewrite Hk, Hp. reflexivity. }
  split.
  { destruct (raw _ _).1; [destruct (unmarshal_metadata _) |]; reflexivity. }
  intros src. split; [destruct (raw _ _).1; reflexivity |].
  split; [intros k Hk; rewrite Hk; reflexivity |].
  intros e He. rewrite He. reflexivity.
Qed.

End FetchCycle.

(** C6 as stated fails: when the API server refuses the connection the
    fetch ends after its first and only GET. *)
Lemma fetch_cycle_single_request :
  gets (trace (@Clusterpub.discoverAPIServerOIDC Fixture.externals
                 (Fixture.boot [])).2)
  = ["/.well-known/openid-configuration"]
  /\ (@Clusterpub.discoverAPIServerOIDC Fixture.externals (Fixture.boot [])).1
     = (None, None,
        Some "getting /.well-known/openid-configuration: connection refused").
Proof.
  split; vm_compute; reflexivity.
Qed.

(** C6 on a healthy cluster: two GETs, the second for the path of the URI,
    and both documents returned. *)
Lemma fetch_cycle_requests_witness :
  let s := Fixture.boot [Ok "discovery:internal"; Ok Fixture.keys1] in
  let d := @Clusterpub.discoverAPIServerOIDC Fixture.externals s in
  trace d.2 = [EvGet "/.well-known/openid-configuration"; EvGet "/openid/v1/jwks"]
  /\ d.1 = (Some Fixture.internal_doc, Some Fixture.keys1, None).
Proof.
  pose proof (@fetch_cycle_requests Fixture.externals
                (Fixture.boot [Ok "discovery:internal"; Ok Fixture.keys1])) as H.
  destruct H as (_ & _ & _ & H & _).
  specialize (H "discovery:internal" Fixture.internal_doc "/openid/v1/jwks"
                eq_refl eq_refl eq_refl).
  destruct H as (Ht & _ & _ & _ & Hok).
  split; [exact Ht | exact (Hok Fixture.keys1 Fixture.keys1 eq_refl eq_refl)].
Defined.

(** ** Start-up *)

Section Startup.
Context `{E : Externals}.

(** What the first program serves from is what the priming fetch returned. *)
Lemma clusterpub_serving (listen kubeconfig : string) (s : Sys)
    (addr : string) (v : Clusterpub.Vars) :
  (Clusterpub.main listen kubeconfig s).1 = Serving addr v ->
  exists md ks,
    (Clusterpub.discoverAPIServerOIDC s).1 = (Some md, Some ks, None)
    /\ v = {| Clusterpub.metadata := Some md; Clusterpub.jwks := Some ks |}
    /\ addr = listen.
Proof.
  unfold Clusterpub.main. destruct (bootstrap kubeconfig); [| discriminate].
  act.
  destruct (discover_shape s) as [(md & ks & Hs) | (e & Hs)];
    rewrite Hs; simpl; [| discriminate].
  intros H. inversion H; subst. eauto.
Qed.

(** What the second program hands to the library handler. *)
Lemma publisher_serving (listen kubeconfig : string) (s : Sys)
    (addr : string) (h : Publisher.Handler) :
  (Publisher.main listen kubeconfig s).1 = Serving addr h ->
  exists md,
    (Publisher.discoverAPIServerOIDC s).1 = (Some md, None)
    /\ h = {| Publisher.published := Publisher.republish md;
              Publisher.source := {| Publisher.url := JWKSURI md |} |}
    /\ addr = listen.
Proof.
  unfold Publisher.main. destruct (bootstrap kubeconfig); [| discriminate].
  act.
  destruct (Publisher.discoverAPIServerOIDC s) as [[md err] s1]. simpl.
  destruct err; [discriminate |]. destruct md as [md |]; [| discriminate].
  destruct (handler_check _); [| discriminate]. simpl.
  intros H. inversion H; subst. eauto.
Qed.

(** C3.  When the priming fetch fails, [main] exits with status 1 and the
    listener is never bound, in both programs; so a process that listens
    has fetched successfully, and serves what that fetch returned. *)
Theorem priming_failure_is_fatal (listen kubeconfig : string) (s : Sys) :
  (forall e, (Clusterpub.discoverAPIServerOIDC s).1.2 = Some e ->
     let r := Clusterpub.main listen kubeconfig s in
     r.1 = Exited 1
     /\ last (trace r.2) = Some (EvExit 1)
     /\ listens (trace r.2) = listens (trace s))
  /\ (forall e, (Publisher.discoverAPIServerOIDC s).1.2 = Some e ->
        let r := Publisher.main listen kubeconfig s in
        r.1 = Exited 1
        /\ last (trace r.2) = Some (EvExit 1)
        /\ listens (trace r.2) = listens (trace s))
  /\ (forall addr v, (Clusterpub.main listen kubeconfig s).1 = Serving addr v ->
        exists md ks,
          (Clusterpub.discoverAPIServerOIDC s).1 = (Some md, Some ks, None)
          /\ Clusterpub.metadata v = Some md /\ Clusterpub.jwks v = Some ks)
  /\ (forall addr h, (Publisher.main listen kubeconfig s).1 = Serving addr h ->
        exists md,
          (Publisher.discoverAPIServerOIDC s).1 = (Some md, None)
          /\ Publisher.published h = Publisher.republish md).
Proof.
  assert (Hl : forall t, listens (t ++ [EvExit 1]) = listens t).
  { intros t. unfold listens. rewrite existsb_app. simpl. apply orb_false_r. }
  assert (Hg : forall t u, listens (t ++ [EvGet u]) = listens t).
  { intros t u. unfold listens. rewrite existsb_app. simpl. apply orb_false_r. }
  assert (Hm : forall t m, listens (t ++ [EvLog m]) = listens t).
  { intros t m. unfold listens. rewrite existsb_app. simpl. apply orb_false_r. }
  split; [| split; [| split]].
  - intros e He. apply discover_error in He. cbv zeta.
    destruct (discover_trace s) as (tl & Ht & Htl).
    unfold Clusterpub.main. destruct (bootstrap kubeconfig); act.
    + rewrite He. simpl. rewrite last_snoc, Hl, Hm, Ht.
      split; [reflexivity | split; [reflexivity |]].
      destruct Htl as [-> | [p ->]].
      * apply Hg.
      * change (trace s ++ [EvGet "/.well-known/openid-configuration"; EvGet p])
          with (trace s ++ [EvGet "/.well-known/openid-configuration"] ++ [EvGet p]).
        rewrite app_assoc, !Hg. reflexivity.
    + rewrite last_snoc, Hl, Hm. auto.
  - intros e He. cbv zeta.
    unfold Publisher.main. destruct (bootstrap kubeconfig); act.
    + revert He. unfold Publisher.discoverAPIServerOIDC. act.
      destruct (raw _ _).1; [destruct (unmarshal_metadata _) |]; simpl;
        try discriminate; intros _;
        rewrite last_snoc, Hl, Hm, Hg; auto.
    + rewrite last_snoc, Hl, Hm. auto.
  - intros addr v H. apply clusterpub_serving in H.
    destruct H as (md & ks & Hd & -> & _). eauto.
  - intros addr h H. apply publisher_serving in H.
    destruct H as (md & Hd & -> & _). eauto.
Qed.

End Startup.

(** C3 at an API server that refuses the connection. *)
Lemma priming_failure_is_fatal_witness :
  let r := @Clusterpub.main Fixture.externals "localhost:8080" "" (Fixture.boot []) in
  r.1 = Exited 1
  /\ last (trace r.2) = Some (EvExit 1)
  /\ listens (trace r.2) = false.
Proof.
  exact (proj1 (@priming_failure_is_fatal Fixture.externals
                  "localhost:8080" "" (Fixture.boot []))
           "getting /.well-known/openid-configuration: connection refused"
           eq_refl).
Defined.

(** ** The published discovery document *)

Section Published.
Context `{E : Externals}.


(** C10.  The metadata the second program publishes has both
    [token_endpoint] and [authorization_endpoint] overwritten with the
    issuer followed by [/nonexistent], whatever the cluster sent for them;
    together with [jwks_uri] these are the only fields that change. *)
Theorem endpoints_overwritten (listen kubeconfig : string) (s : Sys)
    (addr : string) (h : Publisher.Handler) :
  (Publisher.main listen kubeconfig s).1 = Serving addr h ->
  exists md,
    (Publisher.discoverAPIServerOIDC s).1 = (Some md, None)
    /\ TokenEndpoint (Publisher.published h) = Issuer md +:+ "/nonexistent"
    /\ AuthorizationEndpoint (Publisher.published h)
       = Issuer md +:+ "/nonexistent"
    /\ JWKSURI (Publisher.published h) = Issuer md +:+ "/.well-known/jwks.json"
    /\ Issuer (Publisher.published h) = Issuer md
    /\ Other (Publisher.published h) = Other md.
Proof.
  intros H. apply publisher_serving in H.
  destruct H as (md & Hd & -> & _).
  exists md. unfold Publisher.republish. simpl.
  repeat split; assumption.
Qed.

End Published.

(** C10 on a default cluster, which sends neither endpoint. *)
Lemma endpoints_overwritten_witness :
  exists md,
    (@Publisher.discoverAPIServerOIDC Fixture.externals
       (Fixture.boot [Ok "discovery:internal"])).1 = (Some md, None)
    /\ TokenEndpoint (Publisher.published Fixture.default_handler)
       = Issuer md +:+ "/nonexistent"
    /\ AuthorizationEndpoint (Publisher.published Fixture.default_handler)
       = Issuer md +:+ "/nonexistent"
    /\ JWKSURI (Publisher.published Fixture.default_handler)
       = Issuer md +:+ "/.well-known/jwks.json"
    /\ Issuer (Publisher.published Fixture.default_handler) = Issuer md
    /\ Other (Publisher.published Fixture.default_handler) = Other md.
Proof.
  exact (@endpoints_overwritten Fixture.externals "localhost:8080" ""
           (Fixture.boot [Ok "discovery:internal"]) "localhost:8080"
           Fixture.default_handler eq_refl).
Defined.

(** ** The key set, from the API server to the client *)

Section KeySet.
Context `{E : Externals}.

(** C5 (as amended).  The first program keeps the key set parsed and
    encodes it again for every request: the body it serves is the encoding
    of what the upstream body parsed to, followed by a line feed.  The key
    source of the second program returns the upstream body as it is. *)
Theorem jwks_passes_through (s : Sys) :
  (forall md ks,
     (Clusterpub.discoverAPIServerOIDC s).1 = (Some md, Some ks, None) ->
     exists b1 p B,
       (raw wellKnown (world s)).1 = Ok b1
       /\ unmarshal_metadata b1 = Ok md
       /\ url_path (JWKSURI md) = Ok p
       /\ (raw p (raw wellKnown (world s)).2).1 = Ok B
       /\ unmarshal_jwks B = Ok ks
       /\ forall v, Clusterpub.jwks v = Some ks ->
            Clusterpub.serveJWKS v
            = (v, match marshal_jwks ks with
                  | Ok enc => Reply 200 "application/jwk-set+json" (enc +:+ newline)
                  | Err _ => internal_error
                  end))
  /\ (forall (src : Publisher.k8sAPIJWKSSource) B,
        (raw (Publisher.url src) (world s)).1 = Ok B ->
        (Publisher.GetJWKS src s).1 = (Some B, None)).
Proof.
  split.
  - intros md ks. unfold Clusterpub.discoverAPIServerOIDC, wellKnown. act.
    destruct (raw _ _).1 as [b1 |] eqn:H1; [| discriminate].
    destruct (unmarshal_metadata b1) as [md0 |] eqn:H2; [| discriminate].
    destruct (url_path _) as [p |] eqn:H3; [| discriminate]. simpl.
    destruct (raw p _).1 as [B |] eqn:H4; [| discriminate].
    destruct (unmarshal_jwks B) as [ks0 |] eqn:H5; [| discriminate].
    intros H. inversion H; subst md0 ks0.
    exists b1, p, B. do 5 (split; [reflexivity || assumption |]).
    intros v Hv. unfold Clusterpub.serveJWKS, encode. rewrite Hv.
    destruct (marshal_jwks ks); reflexivity.
  - intros src B HB.
    unfold Publisher.GetJWKS, Publisher.k8sAPIJWKSSource_GetJWKS. act.
    rewrite HB. reflexivity.
Qed.

(** The step of either route is always possible, leaves the world and the
    trace as they were and computes its reply from the two variables. *)
Lemma handlers_do_not_fetch (m : Clusterpub.machine) (a : Clusterpub.action) :
  a = Clusterpub.GetOpenIDConfiguration \/ a = Clusterpub.GetJWKS ->
  exists m' r,
    Clusterpub.step a m = Some (m', Some r)
    /\ Clusterpub.sys m' = Clusterpub.sys m
    /\ (r = (Clusterpub.serveOpenIDConfiguration (Clusterpub.vars m)).2
        \/ r = (Clusterpub.serveJWKS (Clusterpub.vars m)).2).
Proof.
  intros [-> | ->]; unfold Clusterpub.step.
  - destruct (Clusterpub.serveOpenIDConfiguration _) as [v' r'].
    destruct (Clusterpub.refresher m); eauto 6.
  - destruct (Clusterpub.serveJWKS _) as [v' r'].
    destruct (Clusterpub.refresher m); eauto 6.
Qed.

End KeySet.

(** C5 as stated fails: the first program serves the upstream key set with
    a line feed after it, even with a codec that changes nothing. *)
Lemma jwks_body_differs :
  exists v,
    (@Clusterpub.main Fixture.externals "localhost:8080" ""
       (Fixture.boot [Ok "discovery:internal"; Ok Fixture.keys1])).1
    = Serving "localhost:8080" v
    /\ (Clusterpub.serveJWKS v).2
       = Reply 200 "application/jwk-set+json" (Fixture.keys1 +:+ newline)
    /\ Fixture.keys1 +:+ newline <> Fixture.keys1.
Proof.
  eexists. split; [vm_compute; reflexivity |].
  split; [vm_compute; reflexivity | discriminate].
Qed.

(** C5 on a default cluster. *)
Lemma jwks_passes_through_witness :
  (@Clusterpub.serveJWKS Fixture.externals
     (Clusterpub.vars (Fixture.primed [])))
  = (Clusterpub.vars (Fixture.primed []),
     Reply 200 "application/jwk-set+json" (Fixture.keys1 +:+ newline))
  /\ (@Publisher.GetJWKS Fixture.externals _ _
        (Publisher.source Fixture.default_handler)
        (Fixture.boot [Ok Fixture.keys1])).1 = (Some Fixture.keys1, None).
Proof.
  pose proof (@jwks_passes_through Fixture.externals
                (Fixture.boot [Ok "discovery:internal"; Ok Fixture.keys1]))
    as [H1 _].
  destruct (H1 Fixture.internal_doc Fixture.keys1 eq_refl)
    as (b1 & p & B & _ & _ & _ & _ & _ & Hserve).
  split.
  - exact (Hserve (Clusterpub.vars (Fixture.primed [])) eq_refl).
  - exact (proj2 (@jwks_passes_through Fixture.externals
                    (Fixture.boot [Ok Fixture.keys1]))
             (Publisher.source Fixture.default_handler) Fixture.keys1 eq_refl).
Defined.

(** ** The two variables under concurrent requests *)

Section Interleaving.
Context `{E : Externals}.
Import Clusterpub.

Lemma serveOpenIDConfiguration_vars (v : Vars) :
  (serveOpenIDConfiguration v).1
  = {| metadata := (fun md => set_JWKSURI (Issuer md +:+ "/jwks") md) <$> metadata v;
       jwks := jwks v |}.
Proof.
  unfold serveOpenIDConfiguration, encode. destruct v as [[md |] ks]; simpl.
  - destruct (marshal_metadata _); reflexivity.
  - reflexivity.
Qed.

Lemma serveJWKS_vars (v : Vars) : (serveJWKS v).1 = v.
Proof.
  unfold serveJWKS. destruct (encode _ _); reflexivity.
Qed.

Lemma as_served_refl (a : option ProviderMetadata) : as_served a a.
Proof. left. reflexivity. Qed.

Lemma as_served_trans (a b c : option ProviderMetadata) :
  as_served a b -> as_served b c -> as_served a c.
Proof.
  unfold as_served. intros [-> | ->] [-> | ->]; auto.
  right. destruct a; reflexivity.
Qed.

(** A step moves what the variables will settle to only by starting an
    assignment or by the discovery handler's rewrite. *)
Lemma step_settled (a : action) (m m' : machine) (r : option reply) :
  step a m = Some (m', r) ->
  match a with
  | Tick => settled m' = {| metadata := (discovering (sys m)).1.1;
                            jwks := (discovering (sys m)).1.2 |}
  | _ => jwks (settled m') = jwks (settled m)
         /\ as_served (metadata (settled m)) (metadata (settled m'))
  end.
Proof.
  unfold step, settled. destruct a.
  - destruct (refresher m); [| discriminate | discriminate].
    intros H; inversion H; subst; reflexivity.
  - destruct (refresher m); [discriminate | |];
      intros H; inversion H; subst; simpl; split;
      reflexivity || apply as_served_refl.
  - pose proof (serveOpenIDConfiguration_vars (vars m)) as Hv.
    destruct (serveOpenIDConfiguration (vars m)) as [v' r']. simpl in Hv.
    intros H; inversion H; subst; simpl.
    destruct (refresher m); simpl; split;
      reflexivity || (try apply as_served_refl); right; reflexivity.
  - pose proof (serveJWKS_vars (vars m)) as Hv.
    destruct (serveJWKS (vars m)) as [v' r']. simpl in Hv.
    intros H; inversion H; subst; simpl.
    destruct (refresher m); simpl; split;
      reflexivity || apply as_served_refl.
  - unfold rewriteJWKSURI.
    destruct m as [s [[md |] ks] p n]; simpl;
      destruct p; intros H; inversion H; subst; simpl; split;
      try reflexivity; try apply as_served_refl;
      right; reflexivity.
  - destruct (pending m); [destruct (refresher m); discriminate |].
    destruct (refresher m); intros H; inversion H; subst; simpl; split;
      reflexivity || apply as_served_refl.
Qed.

(** Over a whole schedule: the variables settle to the pair of the last
    fetch, or to what they were settling to when no tick arrived. *)
Lemma exec_settled (sched : list action) :
  forall (m0 m : machine) (rs : list reply),
    exec sched m0 = Some (m, rs) ->
    let target := match latest sched m0 with
                  | Some (md, ks) => {| metadata := md; jwks := ks |}
                  | None => settled m0
                  end in
    jwks (settled m) = jwks target
    /\ as_served (metadata target) (metadata (settled m)).
Proof.
  induction sched as [| a rest IH]; intros m0 m rs; simpl.
  - intros H; inversion H; subst. split; [reflexivity | apply as_served_refl].
  - destruct (step a m0) as [[m1 r] |] eqn:Hstep; [| discriminate].
    destruct (exec rest m1) as [[m2 rs'] |] eqn:Hexec; [| discriminate].
    intros H; inversion H; subst m2 rs; clear H.
    specialize (IH m1 m rs' Hexec). simpl in IH.
    apply step_settled in Hstep.
    destruct (latest rest m1) as [[md ks] |].
    + exact IH.
    + destruct IH as [Hk Hm].
      destruct a; simpl;
        [rewrite Hstep in Hk, Hm; destruct (discovering (sys m0)).1; auto | ..];
        destruct Hstep as [Hk' Hm']; (split; [congruence |]);
        eapply as_served_trans; eassumption.
Qed.

(** C4 (as amended).  The assignment is two separate stores, and only when
    the goroutine is back at its ticker do the two variables hold the
    metadata and the keys of one fetch: those of the last tick, or the primed
    ones when no tick arrived.  The metadata may by then carry the rewrite of
    the discovery handler. *)
Theorem pair_coherent_between_refreshes (sched : list action)
    (m0 m : machine) (rs : list reply) :
  refresher m0 = Waiting ->
  exec sched m0 = Some (m, rs) ->
  refresher m = Waiting ->
  let '(md, ks) := from_option id (metadata (vars m0), jwks (vars m0))
                     (latest sched m0) in
  jwks (vars m) = ks /\ as_served md (metadata (vars m)).
Proof.
  intros H0 Hexec Hm.
  pose proof (exec_settled sched m0 m rs Hexec) as H. simpl in H.
  unfold settled in H. rewrite H0, Hm in H.
  destruct (latest sched m0) as [[md ks] |]; simpl; exact H.
Qed.

End Interleaving.

(** C4 as stated fails: between the two stores of a refresh, the discovery
    route already answers with the metadata of the new fetch while the key
    route still answers with the keys of the previous one. *)
Lemma reader_sees_mixed_pair :
  let m0 := Fixture.primed [Ok "discovery:rotated"; Ok Fixture.keys2] in
  (Clusterpub.discovering (Clusterpub.sys m0)).1
  = (Some Fixture.rotated_doc, Some Fixture.keys2)
  /\ Clusterpub.vars m0
     = @Clusterpub.Build_Vars Fixture.externals
         (Some Fixture.internal_doc) (Some Fixture.keys1)
  /\ exists m,
       Clusterpub.exec [Clusterpub.Tick; Clusterpub.Store;
                        Clusterpub.GetOpenIDConfiguration; Clusterpub.GetJWKS] m0
       = Some (m, [Reply 200 "application/json"
                     ("issuer=https://issuer.example jwks_uri=https://issuer.example/jwks alg=id_token,ES256" +:+ newline);
                   Reply 200 "application/jwk-set+json"
                     (Fixture.keys1 +:+ newline)])
       /\ Clusterpub.vars m
          = @Clusterpub.Build_Vars Fixture.externals
              (Some (set_JWKSURI "https://issuer.example/jwks" Fixture.rotated_doc))
              (Some Fixture.keys1)
       /\ Clusterpub.refresher m
          = Clusterpub.StoredMetadata (Some (Fixture.keyset Fixture.keys2)).
Proof.
  cbv zeta. split; [vm_compute; reflexivity |].
  split; [reflexivity |].
  eexists. split; [vm_compute; reflexivity |].
  split; vm_compute; reflexivity.
Qed.

(** C4 over a refresh with requests in between, once both stores are done. *)
Lemma pair_coherent_between_refreshes_witness :
  let m0 := Fixture.primed [Ok "discovery:rotated"; Ok Fixture.keys2] in
  let sched := [Clusterpub.Tick; Clusterpub.GetJWKS; Clusterpub.Store;
                Clusterpub.GetOpenIDConfiguration; Clusterpub.Store] in
  exists m rs,
    Clusterpub.exec sched m0 = Some (m, rs)
    /\ Clusterpub.jwks (Clusterpub.vars m) = Some (Fixture.keyset Fixture.keys2)
    /\ Clusterpub.as_served (Some Fixture.rotated_doc)
         (Clusterpub.metadata (Clusterpub.vars m)).
Proof.
  cbv zeta.
  destruct (@Clusterpub.exec Fixture.externals
              [Clusterpub.Tick; Clusterpub.GetJWKS; Clusterpub.Store;
               Clusterpub.GetOpenIDConfiguration; Clusterpub.Store]
              (Fixture.primed [Ok "discovery:rotated"; Ok Fixture.keys2]))
    as [[m rs] |] eqn:Hexec; [| vm_compute in Hexec; discriminate].
  exists m, rs. split; [reflexivity |].
  assert (Hw : Clusterpub.refresher m = Clusterpub.Waiting).
  { vm_compute in Hexec. inversion Hexec. reflexivity. }
  exact (@pair_coherent_between_refreshes Fixture.externals
           [Clusterpub.Tick; Clusterpub.GetJWKS; Clusterpub.Store;
            Clusterpub.GetOpenIDConfiguration; Clusterpub.Store]
           (Fixture.primed [Ok "discovery:rotated"; Ok Fixture.keys2]) m rs
           eq_refl Hexec Hw).
Defined.

(** ** The discovery reply under concurrent stores *)

Section DiscoveryReply.
Context `{E : Externals}.
Import Clusterpub.






(** The two statements run back to back are the uninterrupted handler. *)
Lemma handler_split (m : machine) :
  exec [GetOpenIDConfiguration] m
  = match metadata (vars m) with
    | Some _ => exec [Rewrite; Encode] m
    | None => exec [Rewrite] m
    end.
Proof.
  unfold exec, step, serveOpenIDConfiguration, rewriteJWKSURI, encodeMetadata.
  destruct m as [s [[md |] ks] p n]; simpl.
  - destruct (marshal_metadata _); destruct p; reflexivity.
  - destruct p; reflexivity.
Qed.

End DiscoveryReply.



(** ** Requests after the API server has failed *)

Section UpstreamFailure.
Context `{E : Externals}.
Import Clusterpub.

(** C8 (the code departs from it).  The handlers do compute their replies
    from the two variables alone and send nothing to the API server; but a
    tick that finds the API server failing empties the variables, so the
    requests that follow do fail: the discovery route drops the connection
    and the key route serves [null]. *)
Theorem upstream_failure_fails_requests (m : machine) (e : string) :
  refresher m = Waiting ->
  (discoverAPIServerOIDC (log "Discovering.." (sys m)).2).1.2 = Some e ->
  exists m',
    exec [Tick; Store; Store; GetOpenIDConfiguration; GetJWKS] m
    = Some (m', [Aborted;
                 Reply 200 "application/jwk-set+json" ("null" +:+ newline)])
    /\ sys m' = (discovering (sys m)).2
    /\ vars m' = {| metadata := None; jwks := None |}.
Proof.
  intros Hw He. apply discover_error in He.
  assert (Hd : (discovering (sys m)).1 = (None, None)).
  { rewrite discovering_operands, He. reflexivity. }
  unfold exec, step. rewrite Hw. simpl. rewrite Hd. simpl.
  eexists. split; [reflexivity |]. split; reflexivity.
Qed.

End UpstreamFailure.

(** C8 on a primed process whose API server refuses the connection. *)
Lemma upstream_failure_fails_requests_witness :
  exists m',
    Clusterpub.exec [Clusterpub.Tick; Clusterpub.Store; Clusterpub.Store;
                     Clusterpub.GetOpenIDConfiguration; Clusterpub.GetJWKS]
      (Fixture.primed [])
    = Some (m', [Aborted;
                 Reply 200 "application/jwk-set+json" ("null" +:+ newline)])
    /\ Clusterpub.sys m'
       = (Clusterpub.discovering (Clusterpub.sys (Fixture.primed []))).2
    /\ Clusterpub.vars m'
       = @Clusterpub.Build_Vars Fixture.externals None None.
Proof.
  exact (@upstream_failure_fails_requests Fixture.externals (Fixture.primed [])
           "getting /.well-known/openid-configuration: connection refused"
           eq_refl eq_refl).
Defined.

(** ** Cancellation *)

Section Cancellation.
Context `{E : Externals}.




End Cancellation.


(** ** The unused cache *)

Section ZeroCache.
Context {V : Type}.

(** On a cache built with [make]d data, [Set] stores and [Get] reads back. *)
Lemma cache_set_then_get (m : gmap string (option V)) (key : string)
    (d : option V) :
  let c := {| Cache.data := Some m;
              Cache.dataMu := {| Cache.writer := false; Cache.readers := 0 |} |} in
  exists c',
    Cache.Set_ c key d = Cache.Returned tt c'
    /\ Cache.Get c' key = Cache.Returned d c'.
Proof.
  eexists. split; [reflexivity |].
  unfold Cache.Get, Cache.index. simpl. rewrite lookup_insert_eq. reflexivity.
Qed.

(** C9.  On the zero value of [cache], whose map is nil, [Set] panics on
    the map write and [Get] returns nil, for every key and value; neither
    leaves the mutex held. *)
Theorem zero_cache_set_panics (key : string) (d : option V) :
  Cache.Set_ (V := V) Cache.zero key d = Cache.Panicked Cache.zero
  /\ Cache.Get (V := V) Cache.zero key = Cache.Returned None Cache.zero
  /\ Cache.Set_ (V := V) Cache.zero Cache.mdKey d = Cache.Panicked Cache.zero
  /\ Cache.Get (V := V) Cache.zero Cache.ksKey = Cache.Returned None Cache.zero.
Proof.
  unfold Cache.Set_, Cache.Get, Cache.zero, Cache.index. simpl.
  repeat split.
Qed.

End ZeroCache.

(** * Further properties of the two programs *)

(** ** Start-up, beyond the priming fetch *)

Section StartupMore.
Context `{E : Externals}.

Lemma publisher_discover_shape (s : Sys) :
  (exists md, (Publisher.discoverAPIServerOIDC s).1 = (Some md, None))
  \/ (exists e, (Publisher.discoverAPIServerOIDC s).1 = (None, Some e)).
Proof.
  unfold Publisher.discoverAPIServerOIDC. act.
  destruct (raw _ _).1; [destruct (unmarshal_metadata _) |]; eauto.
Qed.

Lemma publisher_discover_trace (s : Sys) :
  trace (Publisher.discoverAPIServerOIDC s).2 = trace s ++ [EvGet wellKnown].
Proof.
  unfold Publisher.discoverAPIServerOIDC, wellKnown. act.
  destruct (raw _ _).1; [destruct (unmarshal_metadata _) |]; reflexivity.
Qed.

Lemma discover_ok_trace (s : Sys) (md : ProviderMetadata) (ks : JSONWebKeySet) :
  (Clusterpub.discoverAPIServerOIDC s).1 = (Some md, Some ks, None) ->
  exists p, url_path (JWKSURI md) = Ok p
            /\ trace (Clusterpub.discoverAPIServerOIDC s).2
               = trace s ++ [EvGet wellKnown; EvGet p].
Proof.
  unfold Clusterpub.discoverAPIServerOIDC, wellKnown. act.
  destruct (raw _ _).1 as [b1 |]; [| discriminate].
  destruct (unmarshal_metadata b1) as [md0 |]; [| discriminate].
  destruct (url_path (JWKSURI md0)) as [p |] eqn:Hp; [| discriminate]. simpl.
  destruct (raw p _).1 as [B |]; [| discriminate].
  destruct (unmarshal_jwks B) as [ks0 |]; [| discriminate]. simpl.
  intros H. inversion H; subst. exists p.
  split; [assumption | rewrite <- app_assoc; reflexivity].
Qed.

Lemma gets_app (t u : list event) : gets (t ++ u) = gets t ++ gets u.
Proof. unfold gets. apply omap_app. Qed.

Lemma listens_app (t u : list event) : listens (t ++ u) = listens t || listens u.
Proof. unfold listens. apply existsb_app. Qed.

(** X1.  Neither fetcher returns a partial result: the first program's
    returns both documents and no error, or no document and an error; the
    second program's returns the metadata or an error, never both and never
    neither. *)
Theorem fetch_all_or_nothing (s : Sys) :
  ((exists md ks, (Clusterpub.discoverAPIServerOIDC s).1 = (Some md, Some ks, None))
   \/ (exists e, (Clusterpub.discoverAPIServerOIDC s).1 = (None, None, Some e)))
  /\ ((exists md, (Publisher.discoverAPIServerOIDC s).1 = (Some md, None))
      \/ (exists e, (Publisher.discoverAPIServerOIDC s).1 = (None, Some e))).
Proof.
  split; [apply discover_shape | apply publisher_discover_shape].
Qed.

(** X2.  When the client bootstrap fails, both programs print the error of
    the failing step and exit with status 1; they send nothing to the API
    server and never listen.  The error names the step: the in-cluster
    configuration when [-kubeconfig] is empty, the flag's file otherwise, or
    the REST client. *)
Theorem bootstrap_failure_is_fatal (listen kubeconfig msg : string) (s : Sys) :
  bootstrap kubeconfig = Err msg ->
  let dead := {| world := world s;
                 trace := trace s ++ [EvLog msg; EvExit 1] |} in
  Clusterpub.main listen kubeconfig s = (Exited 1, dead)
  /\ Publisher.main listen kubeconfig s = (Exited 1, dead)
  /\ ((kubeconfig = "" /\ exists e,
         InClusterConfig = Err e
         /\ msg = "Error creating in cluster configuration: " +:+ e)
      \/ (kubeconfig <> "" /\ exists e,
            BuildConfigFromFlags kubeconfig = Err e
            /\ msg = "Error flag config: " +:+ e)
      \/ (exists c e,
            (if decide (kubeconfig = "") then InClusterConfig
             else BuildConfigFromFlags kubeconfig) = Ok c
            /\ RESTClientFor c = Err e
            /\ msg = "Error creating rest client: " +:+ e)).
Proof.
  intros H. cbv zeta. simpl.
  unfold Clusterpub.main, Publisher.main. rewrite H. unfold fatalf. act.
  rewrite <- app_assoc. simpl.
  split; [reflexivity | split; [reflexivity |]].
  revert H. unfold bootstrap.
  destruct (decide (kubeconfig = "")) as [Hk | Hk].
  - destruct InClusterConfig as [c | e].
    + destruct (RESTClientFor c) as [u | e] eqn:Hc; [discriminate |].
      intros H; inversion H; subst. right; right. eauto.
    + intros H; inversion H; subst. left. eauto.
  - destruct (BuildConfigFromFlags kubeconfig) as [c | e].
    + destruct (RESTClientFor c) as [u | e] eqn:Hc; [discriminate |].
      intros H; inversion H; subst. right; right. eauto.
    + intros H; inversion H; subst. right; left. eauto.
Qed.

(** X3.  From the parsed flags up to its call of [ListenAndServe], [main]
    goes one of two ways in both programs: it exits with status 1 before the
    call, without having bound the listener, or it makes the call on the
    address of [-listen] as the last thing it does in that stretch.  On the
    way the second program never reaches its rewrite of the metadata with a
    nil pointer.  (What follows the call, its failure or the shutdown, is
    not in this stretch.) *)
Theorem main_exits_or_listens (listen kubeconfig : string) (s : Sys) :
  let r1 := Clusterpub.main listen kubeconfig s in
  let r2 := Publisher.main listen kubeconfig s in
  ((r1.1 = Exited 1 /\ listens (trace r1.2) = listens (trace s))
   \/ (exists v, r1.1 = Serving listen v
                 /\ last (trace r1.2) = Some (EvListen listen)))
  /\ ((r2.1 = Exited 1 /\ listens (trace r2.2) = listens (trace s))
      \/ (exists h, r2.1 = Serving listen h
                    /\ last (trace r2.2) = Some (EvListen listen))).
Proof.
  cbv zeta. split.
  - unfold Clusterpub.main. destruct (bootstrap kubeconfig); act.
    + destruct (discover_trace s) as (tl & Ht & Htl).
      destruct (discover_shape s) as [(md & ks & Hs) | (e & Hs)];
        rewrite Hs; simpl.
      * right. eexists. split; [reflexivity | apply last_snoc].
      * left. split; [reflexivity |].
        rewrite !listens_app, Ht, listens_app. simpl.
        destruct Htl as [-> | [p ->]]; simpl;
          rewrite !orb_false_r; reflexivity.
    + left. split; [reflexivity |].
      rewrite !listens_app. simpl. rewrite !orb_false_r. reflexivity.
  - unfold Publisher.main. destruct (bootstrap kubeconfig); act.
    + pose proof (publisher_discover_trace s) as Ht.
      destruct (publisher_discover_shape s) as [(md & Hs) | (e & Hs)];
        rewrite Hs; simpl.
      * destruct (handler_check _); simpl.
        -- right. eexists. split; [reflexivity | apply last_snoc].
        -- left. split; [reflexivity |].
           rewrite !listens_app, Ht, listens_app. simpl.
           rewrite !orb_false_r. reflexivity.
      * left. split; [reflexivity |].
        rewrite !listens_app, Ht, listens_app. simpl.
        rewrite !orb_false_r. reflexivity.
    + left. split; [reflexivity |].
      rewrite !listens_app. simpl. rewrite !orb_false_r. reflexivity.
Qed.

(** X4.  A process that listens has sent the API server exactly the
    requests of its priming fetch, all before binding the listener: the
    discovery path and the key path in the first program, the discovery path
    alone in the second, whose keys are not fetched at start-up. *)
Theorem listen_follows_priming (listen kubeconfig : string) (s : Sys) :
  (forall addr v,
     (Clusterpub.main listen kubeconfig s).1 = Serving addr v ->
     exists md p,
       Clusterpub.metadata v = Some md
       /\ url_path (JWKSURI md) = Ok p
       /\ trace (Clusterpub.main listen kubeconfig s).2
          = trace s ++ [EvGet wellKnown; EvGet p;
                        EvLog ("listening on " +:+ listen); EvListen listen])
  /\ (forall addr h,
        (Publisher.main listen kubeconfig s).1 = Serving addr h ->
        trace (Publisher.main listen kubeconfig s).2
        = trace s ++ [EvGet wellKnown;
                      EvLog ("listening addr=" +:+ listen); EvListen listen]).
Proof.
  split.
  - intros addr v H.
    destruct (clusterpub_serving _ _ _ _ _ H) as (md & ks & Hd & -> & _).
    destruct (discover_ok_trace s md ks Hd) as (p & Hp & Ht).
    exists md, p. split; [reflexivity | split; [assumption |]].
    revert H. unfold Clusterpub.main.
    destruct (bootstrap kubeconfig); [| discriminate]. act.
    rewrite Hd. simpl. intros _. rewrite Ht, <- !app_assoc. reflexivity.
  - intros addr h H.
    destruct (publisher_serving _ _ _ _ _ H) as (md & Hd & -> & _).
    pose proof (publisher_discover_trace s) as Ht.
    revert H. unfold Publisher.main.
    destruct (bootstrap kubeconfig); [| discriminate]. act.
    rewrite Hd. simpl. destruct (handler_check _); [| discriminate]. simpl.
    intros _. rewrite Ht, <- !app_assoc. reflexivity.
Qed.

(** X5.  In the second program a metadata document that the handler
    library refuses is fatal as well: after a successful fetch, [main] prints
    the library's error and exits with status 1 without listening. *)
Theorem handler_rejection_is_fatal (listen kubeconfig e : string) (s : Sys)
    (md : ProviderMetadata) :
  bootstrap kubeconfig = Ok tt ->
  (Publisher.discoverAPIServerOIDC s).1 = (Some md, None) ->
  handler_check (Publisher.republish md) = Err e ->
  (Publisher.main listen kubeconfig s).1 = Exited 1
  /\ trace (Publisher.main listen kubeconfig s).2
     = trace s ++ [EvGet wellKnown;
                   EvLog ("Failed to create discovery handler error=" +:+ e);
                   EvExit 1].
Proof.
  intros Hb Hd Hc. pose proof (publisher_discover_trace s) as Ht.
  unfold Publisher.main. rewrite Hb. act. rewrite Hd. simpl. rewrite Hc. simpl.
  split; [reflexivity |]. rewrite Ht, <- !app_assoc. reflexivity.
Qed.

End StartupMore.

(** X2 for a process started outside a cluster without [-kubeconfig]. *)
Lemma bootstrap_failure_is_fatal_witness :
  @Clusterpub.main Faulty.outside_cluster "localhost:8080" ""
    (Faulty.boot Faulty.outside_cluster [Ok "discovery:internal"])
  = (Exited 1,
     @Build_Sys Faulty.outside_cluster [Ok "discovery:internal"]
       [EvLog "Error creating in cluster configuration: unable to load in-cluster configuration";
        EvExit 1]).
Proof.
  exact (proj1 (@bootstrap_failure_is_fatal Faulty.outside_cluster
                  "localhost:8080" ""
                  "Error creating in cluster configuration: unable to load in-cluster configuration"
                  (Faulty.boot Faulty.outside_cluster [Ok "discovery:internal"])
                  eq_refl)).
Defined.

(** X4 on a default cluster. *)
Lemma listen_follows_priming_witness :
  trace (@Publisher.main Fixture.externals "localhost:8080" ""
           (Fixture.boot [Ok "discovery:internal"])).2
  = [EvGet wellKnown; EvLog "listening addr=localhost:8080";
     EvListen "localhost:8080"].
Proof.
  exact (proj2 (@listen_follows_priming Fixture.externals "localhost:8080" ""
                  (Fixture.boot [Ok "discovery:internal"]))
           "localhost:8080" Fixture.default_handler eq_refl).
Defined.

(** X5 with a library that refuses every document. *)
Lemma handler_rejection_is_fatal_witness :
  (@Publisher.main Faulty.strict_handler "localhost:8080" ""
     (Faulty.boot Faulty.strict_handler [Ok "discovery:internal"])).1 = Exited 1
  /\ trace (@Publisher.main Faulty.strict_handler "localhost:8080" ""
              (Faulty.boot Faulty.strict_handler [Ok "discovery:internal"])).2
     = [EvGet wellKnown;
        EvLog "Failed to create discovery handler error=issuer is not an https URL";
        EvExit 1].
Proof.
  exact (@handler_rejection_is_fatal Faulty.strict_handler "localhost:8080" ""
           "issuer is not an https URL"
           (Faulty.boot Faulty.strict_handler [Ok "discovery:internal"])
           Fixture.internal_doc eq_refl eq_refl eq_refl).
Defined.

(** ** The handlers of the first program *)

Section Handlers.
Context `{E : Externals}.
Import Clusterpub.

Lemma set_JWKSURI_idempotent (md : ProviderMetadata) :
  let rw := fun md => set_JWKSURI (Issuer md +:+ "/jwks") md in
  rw (rw md) = rw md.
Proof. reflexivity. Qed.

Lemma serveOpenIDConfiguration_again (v : Vars) :
  serveOpenIDConfiguration (serveOpenIDConfiguration v).1
  = serveOpenIDConfiguration v.
Proof.
  unfold serveOpenIDConfiguration, encode. destruct v as [[md |] ks]; simpl.
  - destruct (marshal_metadata (set_JWKSURI _ md)) eqn:Hm; simpl;
      change (set_JWKSURI (Issuer md +:+ "/jwks")
                (set_JWKSURI (Issuer md +:+ "/jwks") md))
        with (set_JWKSURI (Issuer md +:+ "/jwks") md);
      rewrite Hm; reflexivity.
  - reflexivity.
Qed.



Lemma serveJWKS_reply_jwks (v v' : Vars) :
  jwks v' = jwks v -> (serveJWKS v').2 = (serveJWKS v).2.
Proof.
  unfold serveJWKS. intros ->. destruct (encode _ _); reflexivity.
Qed.

Lemma reply_to_rewritten (v : Vars) (a : action) :
  reply_to (serveOpenIDConfiguration v).1 a = reply_to v a.
Proof.
  unfold reply_to. destruct a; try (rewrite serveOpenIDConfiguration_again; reflexivity).
  apply serveJWKS_reply_jwks. rewrite serveOpenIDConfiguration_vars. reflexivity.
Qed.

Lemma request_step_reply (a : action) (m : machine) :
  is_request a = true ->
  exists m1,
    step a m = Some (m1, Some (reply_to (vars m) a))
    /\ sys m1 = sys m
    /\ refresher m1 = refresher m
    /\ pending m1 = pending m
    /\ (vars m1 = vars m \/ vars m1 = (serveOpenIDConfiguration (vars m)).1).
Proof.
  destruct a; try discriminate; intros _; unfold step, reply_to.
  - destruct (serveOpenIDConfiguration (vars m)) as [v1 r1].
    destruct (refresher m); eexists; simpl; eauto 6.
  - pose proof (serveJWKS_vars (vars m)) as Hv.
    destruct (serveJWKS (vars m)) as [v1 r1]. simpl in Hv. subst v1.
    destruct (refresher m); eexists; simpl; eauto 6.
Qed.

(** X8.  Requests that are handled one after the other, with no step of
    the refresh goroutine (neither a tick nor one of its two stores) and no
    other handler between their statements, get stable replies: each gets
    exactly the reply its route gives from the variables at the start, which
    for the discovery route is the dropped connection when the metadata is
    nil.  The rewrite the discovery handler leaves in the shared metadata
    changes no later reply; the API server is not contacted and the key set
    stays as it was. *)
Theorem replies_stable_without_refresh (sched : list action) :
  forall m0 : machine,
    forallb is_request sched = true ->
    exists m,
      exec sched m0 = Some (m, reply_to (vars m0) <$> sched)
      /\ sys m = sys m0
      /\ refresher m = refresher m0
      /\ jwks (vars m) = jwks (vars m0).
Proof.
  induction sched as [| a rest IH]; intros m0 Hreq; simpl in *.
  - exists m0. auto.
  - apply andb_true_iff in Hreq. destruct Hreq as [Ha Hrest].
    destruct (request_step_reply a m0 Ha) as (m1 & Hstep & Hs & Hp & _ & Hv).
    destruct (IH m1 Hrest) as (m & Hexec & Hs' & Hp' & Hk).
    exists m. rewrite Hstep, Hexec. simpl.
    assert (Hsame : reply_to (vars m1) <$> rest = reply_to (vars m0) <$> rest).
    { destruct Hv as [-> | ->]; [reflexivity |].
      apply list_fmap_ext. intros _ x _. apply reply_to_rewritten. }
    rewrite Hsame. split; [reflexivity |].
    split; [congruence |]. split; [congruence |].
    rewrite Hk. destruct Hv as [-> | ->]; [reflexivity |].
    rewrite serveOpenIDConfiguration_vars. reflexivity.
Qed.

End Handlers.

(** X8 on three requests to a primed process whose API server is gone. *)
Lemma replies_stable_without_refresh_witness :
  let m0 := Fixture.primed [] in
  let doc := Reply 200 "application/json"
               ("issuer=https://issuer.example jwks_uri=https://issuer.example/jwks alg=id_token,RS256" +:+ newline) in
  let keys := Reply 200 "application/jwk-set+json" (Fixture.keys1 +:+ newline) in
  exists m,
    Clusterpub.exec [Clusterpub.GetJWKS; Clusterpub.GetOpenIDConfiguration;
                     Clusterpub.GetOpenIDConfiguration; Clusterpub.GetJWKS] m0
    = Some (m, [keys; doc; doc; keys])
    /\ Clusterpub.sys m = Clusterpub.sys m0
    /\ Clusterpub.refresher m = Clusterpub.refresher m0
    /\ Clusterpub.jwks (Clusterpub.vars m) = Clusterpub.jwks (Clusterpub.vars m0).
Proof.
  exact (@replies_stable_without_refresh Fixture.externals
           [Clusterpub.GetJWKS; Clusterpub.GetOpenIDConfiguration;
            Clusterpub.GetOpenIDConfiguration; Clusterpub.GetJWKS]
           (Fixture.primed []) eq_refl).
Defined.

(** ** The refresh loop, tick after tick *)

Section RefreshMore.
Context `{E : Externals}.
Import Clusterpub.

Lemma announced_app (t u : list event) :
  announced (t ++ u) = (announced t + announced u)%nat.
Proof. unfold announced. rewrite List.filter_app, length_app. reflexivity. Qed.

(** What one iteration adds to the trace: its announcement, the one or two
    GETs of the fetch, and the error line when the fetch failed. *)
Lemma refresh_trace (v : Vars) (s : Sys) :
  exists tl fin,
    trace (refresh v s).2
    = trace s ++ [EvLog "Discovering.."; EvGet wellKnown] ++ tl ++ fin
    /\ (tl = [] \/ exists p, tl = [EvGet p])
    /\ (fin = [] \/ exists e, fin = [EvLog ("Failed to discover: " +:+ e)]).
Proof.
  unfold refresh, discovering. act.
  destruct (discover_trace {| world := world s;
                              trace := trace s ++ [EvLog "Discovering.."] |})
    as (tl & Ht & Htl). simpl in Ht.
  destruct (discoverAPIServerOIDC _) as [[[md ks] err] s1]. simpl in *.
  exists tl. destruct err as [e |]; simpl.
  - exists [EvLog ("Failed to discover: " +:+ e)].
    rewrite Ht, <- !app_assoc. simpl. eauto.
  - exists []. rewrite Ht, <- !app_assoc, app_nil_r. simpl. eauto.
Qed.

Lemma refresh_counts (v : Vars) (s : Sys) :
  announced (trace (refresh v s).2) = S (announced (trace s))
  /\ (length (gets (trace s)) + 1
      <= length (gets (trace (refresh v s).2))
      <= length (gets (trace s)) + 2)%nat.
Proof.
  destruct (refresh_trace v s) as (tl & fin & -> & Htl & Hfin).
  rewrite !announced_app, !gets_app, !length_app.
  destruct Htl as [-> | [p ->]], Hfin as [-> | [e ->]]; simpl;
    unfold announced; simpl; lia.
Qed.



(** X11.  The loop never gives up: every tick starts a fetch, failed or
    not, so [n] ticks leave [n] announcements in the log and between [n] and
    [2 n] requests at the API server. *)
Theorem refresh_loop_accounting (n : nat) (v : Vars) (s : Sys) :
  let after := (refresh_loop n v s).2 in
  announced (trace after) = (announced (trace s) + n)%nat
  /\ (length (gets (trace s)) + n
      <= length (gets (trace after))
      <= length (gets (trace s)) + 2 * n)%nat.
Proof.
  cbv zeta. revert v s. induction n as [| n IH]; intros v s.
  - simpl. lia.
  - change (refresh_loop (S n) v s)
      with (refresh_loop n (refresh v s).1 (refresh v s).2).
    destruct (IH (refresh v s).1 (refresh v s).2) as (Ha & Hg).
    destruct (refresh_counts v s) as (Ha1 & Hg1).
    rewrite Ha, Ha1. split; lia.
Qed.

End RefreshMore.


(** ** The second program's metadata and key source *)

Section PublisherMore.
Context `{E : Externals}.

(** X12.  What the second program publishes is a function of the issuer
    and of the fields it does not assign: two upstream documents that agree
    on those are published as the same document, whatever their [jwks_uri],
    [token_endpoint] and [authorization_endpoint]; and the three assignments
    applied to an already published document change nothing. *)
Theorem republish_from_issuer (a b : ProviderMetadata) :
  Issuer a = Issuer b ->
  Other a = Other b ->
  Publisher.republish a = Publisher.republish b
  /\ Publisher.republish (Publisher.republish a) = Publisher.republish a.
Proof.
  intros Hi Ho. unfold Publisher.republish, set_AuthorizationEndpoint,
    set_TokenEndpoint, set_JWKSURI. simpl.
  rewrite Hi, Ho. split; reflexivity.
Qed.

(** X13.  The key source keeps nothing between calls: two calls in a row
    send two GETs for the same upstream URI, and the second returns what the
    API server answers then, be it other keys or an error. *)
Theorem key_source_never_caches (src : Publisher.k8sAPIJWKSSource) (s : Sys) :
  let first := Publisher.GetJWKS src s in
  let second := Publisher.GetJWKS src first.2 in
  let answer := (raw (Publisher.url src) (raw (Publisher.url src) (world s)).2).1 in
  trace second.2 = trace s ++ [EvGet (Publisher.url src); EvGet (Publisher.url src)]
  /\ second.1 = match answer with
                | Ok k => (Some k, None)
                | Err e => (None, Some ("getting " +:+ Publisher.url src
                                        +:+ ": " +:+ e))
                end.
Proof.
  cbv zeta. unfold Publisher.GetJWKS, Publisher.k8sAPIJWKSSource_GetJWKS. act.
  destruct (raw (Publisher.url src) (world s)) as [r1 w1]. simpl.
  destruct r1; simpl;
    destruct (raw (Publisher.url src) w1) as [r2 w2]; simpl;
    destruct r2; simpl; rewrite <- app_assoc; split; reflexivity.
Qed.

End PublisherMore.

(** X12 on two clusters that differ in the key URI they advertise. *)
Lemma republish_from_issuer_witness :
  Publisher.republish Fixture.internal_doc
  = Publisher.republish Fixture.wellknown_doc
  /\ Publisher.republish (Publisher.republish Fixture.internal_doc)
     = Publisher.republish Fixture.internal_doc.
Proof.
  exact (republish_from_issuer Fixture.internal_doc Fixture.wellknown_doc
           eq_refl eq_refl).
Defined.

(** ** The cache once its map exists *)

Section CacheMore.
Context {V : Type}.

Definition unlocked : Cache.RWMutex :=
  {| Cache.writer := false; Cache.readers := 0 |}.

(** X14.  On a cache whose map was made and whose lock is free, [Set]
    followed by [Get] of the same key returns the value that was set; every
    other key reads as before, nil when it was never set; and [Get] leaves
    the cache as it found it. *)
Theorem cache_set_get (m : gmap string (option V)) (key : string)
    (d : option V) :
  let c := {| Cache.data := Some m; Cache.dataMu := unlocked |} in
  exists c',
    Cache.Set_ c key d = Cache.Returned tt c'
    /\ Cache.Get c' key = Cache.Returned d c'
    /\ (forall k, k <> key ->
          Cache.Get c' k = Cache.Returned (Cache.index (Some m) k) c')
    /\ (forall k, k <> key -> m !! k = None ->
          Cache.Get c' k = Cache.Returned None c').
Proof.
  cbv zeta. eexists. split; [reflexivity |].
  unfold Cache.Get, Cache.index, unlocked. simpl.
  split; [rewrite lookup_insert_eq; reflexivity |].
  split.
  - intros k Hk. rewrite lookup_insert_ne by congruence. reflexivity.
  - intros k Hk Hm. rewrite lookup_insert_ne by congruence.
    rewrite Hm. reflexivity.
Qed.


End CacheMore.
